(** * The x402 translation example service (examples/fastapi-translation/main.py)

    A shallow embedding of the FastAPI handlers of the example service and of
    the part of the framework that turns a handler's result into an HTTP
    response, followed by the properties of the service that the
    specification talks about.

    Conventions.
    - A Python [str] is a [string]; the model agrees with Python on ASCII
      text (slicing and [upper] act on bytes here, on code points there).
    - A dict that the source only looks keys up in is a [gmap]; a dict that
      is returned as a JSON document is an association list in the order of
      the literal.
    - A handler is a function of the clock reading and of the module-level
      state of the process; it returns a value or raises, together with the
      state it leaves behind. *)

From Stdlib Require Import ZArith Lia List Ascii String.
From stdpp Require Import base strings gmap.
Import ListNotations.

Open Scope Z_scope.

(** ** Python builtins used by the source *)

Module Py.

(** [c.upper()] for one ASCII character. *)
Definition upper_ascii (c : ascii) : ascii :=
  let n := N_of_ascii c in
  if ((97 <=? n) && (n <=? 122))%N then ascii_of_N (n - 32) else c.

(** [s.upper()] on ASCII strings: the letters a to z are mapped, every
    other byte is kept. On text outside ASCII Python maps further letters
    and may change the length, which this function does not follow. *)
Fixpoint upper (s : string) : string :=
  match s with
  | EmptyString => EmptyString
  | String c s' => String (upper_ascii c) (upper s')
  end.

(** [s.isascii()] *)
Fixpoint isascii (s : string) : bool :=
  match s with
  | EmptyString => true
  | String c s' => (N_of_ascii c <? 128)%N && isascii s'
  end.

(** [s.startswith(p)] *)
Definition startswith (s p : string) : bool := String.prefix p s.

(** [s[:n]] for a non-negative [n]. *)
Definition slice_to (n : nat) (s : string) : string := String.substring 0 n s.

(** [d.get(k, default)] *)
Definition get `{Countable K} {V : Type} (d : gmap K V) (k : K) (default : V) : V :=
  match d !! k with
  | Some v => v
  | None => default
  end.

End Py.

(** ** [datetime] *)

(** A naive [datetime.datetime] value, with the fields Python stores. *)
Record datetime := mk_datetime {
  year : Z; month : Z; day : Z;
  hour : Z; minute : Z; second : Z; microsecond : Z
}.

(** The last [k] decimal digits of [n], most significant first:
    the format [{n:0kd}] for [0 <= n < 10^k]. *)
Fixpoint zero_padded (k : nat) (n : Z) : string :=
  match k with
  | O => EmptyString
  | S k' =>
      zero_padded k' (n / 10)
      +:+ String (ascii_of_N (48 + Z.to_N (n mod 10))) EmptyString
  end.

(** [d.isoformat()]: the fraction is printed only when it is not zero. *)
Definition isoformat (d : datetime) : string :=
  zero_padded 4 (year d) +:+ "-" +:+ zero_padded 2 (month d) +:+ "-"
  +:+ zero_padded 2 (day d) +:+ "T" +:+ zero_padded 2 (hour d) +:+ ":"
  +:+ zero_padded 2 (minute d) +:+ ":" +:+ zero_padded 2 (second d)
  +:+ (if microsecond d =? 0 then "" else "." +:+ zero_padded 6 (microsecond d)).

(** Days from 1970-01-01 to a date of the proleptic Gregorian calendar,
    the calendar of [datetime]. *)
Definition days_from_civil (y m d : Z) : Z :=
  let y' := if m <=? 2 then y - 1 else y in
  let era := y' / 400 in
  let yoe := y' - era * 400 in
  let doy := (153 * ((m + 9) mod 12) + 2) / 5 + d - 1 in
  let doe := yoe * 365 + yoe / 4 - yoe / 100 + doy in
  era * 146097 + doe - 719468.

(** [d.timestamp()] of a UTC reading, in whole seconds; [d1 + timedelta(days=n)]
    is the reading whose timestamp is larger by [n * 86400]. *)
Definition epoch_seconds (d : datetime) : Z :=
  days_from_civil (year d) (month d) (day d) * 86400
  + hour d * 3600 + minute d * 60 + second d.

(** ** JSON documents, exceptions and the handler monad *)

#[local] Set Warnings "-register-all".

Inductive json :=
| JNull
| JBool (b : bool)
| JInt (n : Z)
| JStr (s : string)
| JList (l : list json)
| JObj (fields : list (string * json)).

(** [doc[k]] on a JSON object, [None] when the key is missing. *)
Fixpoint assoc (k : string) (fields : list (string * json)) : option json :=
  match fields with
  | [] => None
  | (k', v) :: rest => if String.eqb k k' then Some v else assoc k rest
  end.

Definition field (k : string) (doc : json) : option json :=
  match doc with
  | JObj fields => assoc k fields
  | _ => None
  end.

(** [doc[k1][k2]...] *)
Fixpoint at_path (ks : list string) (doc : json) : option json :=
  match ks with
  | [] => Some doc
  | k :: ks' =>
      match field k doc with
      | Some d => at_path ks' d
      | None => None
      end
  end.

(** [fastapi.HTTPException(status_code=..., detail=...)] *)
Record HTTPException := mk_HTTPException {
  status_code : Z;
  detail : string
}.

Inductive outcome (A : Type) :=
| Returned (a : A)
| Raised (e : HTTPException).
Arguments Returned {A} a.
Arguments Raised {A} e.

(** Module-level state of the process. *)
Record Globals := mk_Globals {
  WALLET_ADDRESS : string;
  NETWORK : string
}.

(** The assignments executed when the module is imported;
    [x402_wallet] is [os.getenv("X402_WALLET")]. *)
Definition import_module (x402_wallet : option string) : Globals :=
  {| WALLET_ADDRESS :=
       match x402_wallet with
       | Some w => w
       | None => "0x0000000000000000000000000000000000000000"
       end;
     NETWORK := "eip155:8453" |}.

Definition Handler (A : Type) : Type :=
  datetime -> Globals -> outcome A * Globals.

Definition ret {A} (a : A) : Handler A := fun _ g => (Returned a, g).

Definition raise {A} (e : HTTPException) : Handler A := fun _ g => (Raised e, g).

Definition bind {A B} (m : Handler A) (k : A -> Handler B) : Handler B :=
  fun clock g =>
    match m clock g with
    | (Returned a, g') => k a clock g'
    | (Raised e, g') => (Raised e, g')
    end.

(** [datetime.now()] *)
Definition datetime_now : Handler datetime := fun clock g => (Returned clock, g).

(** Reading a module-level name. *)
Definition global {A} (name : Globals -> A) : Handler A :=
  fun _ g => (Returned (name g), g).

Notation "x <- m ;; k" := (bind m (fun x => k))
  (at level 100, m at next level, right associativity).

(** ** The handlers *)

Record TranslationRequest := mk_TranslationRequest {
  text : string;
  from_lang : string;
  to_lang : string
}.

(** The fields [from_lang] and [to_lang] of the response model carry the
    prefix [resp_], the plain names being the projections of the request. *)
Record TranslationResponse := mk_TranslationResponse {
  original : string;
  translated : string;
  resp_from_lang : string;
  resp_to_lang : string;
  timestamp : string;
  subscription_tier : string
}.

Definition translate_text (text from_lang to_lang : string) : string :=
  let translations : gmap (string * string) string :=
    <[("en", "es") := "[ES] " +:+ text]>
    (<[("en", "fr") := "[FR] " +:+ text]>
    (<[("en", "de") := "[DE] " +:+ text]>
    (<[("es", "en") := "[EN] " +:+ text]>
    (<[("fr", "en") := "[EN] " +:+ text]> ∅)))) in
  Py.get translations (from_lang, to_lang)
    ("[" +:+ Py.upper to_lang +:+ "] " +:+ text).

(** [if not x_subscription_id] holds of [None] and of the empty string. *)
Definition verify_user_subscription (x_subscription_id : option string) : string :=
  match x_subscription_id with
  | None | Some EmptyString => "free"
  | Some sid =>
      if Py.startswith sid "basic_" then "basic"
      else if Py.startswith sid "pro_" then "pro"
      else "free"
  end.

Definition translate (request : TranslationRequest) (subscription_tier : string)
  : Handler TranslationResponse :=
  let translated :=
    translate_text (text request) (from_lang request) (to_lang request) in
  now <- datetime_now ;;
  ret {| original := text request;
         translated := translated;
         resp_from_lang := from_lang request;
         resp_to_lang := to_lang request;
         timestamp := isoformat now;
         subscription_tier := subscription_tier |}.

Definition get_subscription_status (subscription_tier : string) : Handler json :=
  let usage : gmap string json :=
    <["free" := JObj [("used", JInt 5); ("limit", JInt 10)]]>
    (<["basic" := JObj [("used", JInt 324); ("limit", JInt 1000)]]>
    (<["pro" := JObj [("used", JInt 5234); ("limit", JNull)]]> ∅)) in
  ret (JObj [
    ("tier", JStr subscription_tier);
    ("usage", Py.get usage subscription_tier
                (JObj [("used", JInt 0); ("limit", JInt 10)]));
    ("expires", if negb (String.eqb subscription_tier "free")
                then JStr "2026-02-28T23:59:59Z" else JNull)]).

(** The table [prices] of [subscribe]. *)
Definition prices : gmap string string :=
  <["basic" := "10"]> (<["pro" := "50"]> ∅).

(** [tier not in prices] and the later [prices[tier]] are one lookup here. *)
Definition subscribe (tier x_payment_hash : string) : Handler json :=
  match prices !! tier with
  | None => raise {| status_code := 400; detail := "Invalid tier" |}
  | Some price =>
      let subscription_id := tier +:+ "_" +:+ Py.slice_to 16 x_payment_hash in
      ret (JObj [
        ("success", JBool true);
        ("subscription_id", JStr subscription_id);
        ("tier", JStr tier);
        ("price", JStr ("$" +:+ price +:+ " USDC"));
        ("duration", JStr "30 days");
        ("expires", JStr "2026-02-28T23:59:59Z");
        ("instructions",
         JStr ("Include 'X-Subscription-Id: " +:+ subscription_id
               +:+ "' header in API requests"))])
  end.

Definition x402_discovery : Handler json :=
  wallet <- global WALLET_ADDRESS ;;
  network <- global NETWORK ;;
  ret (JObj [
    ("version", JStr "1.0");
    ("name", JStr "Translation API");
    ("description", JStr "Subscription-based translation service");
    ("payment", JObj [
       ("wallet", JStr wallet);
       ("network", JStr network);
       ("token", JStr "USDC");
       ("facilitator", JStr "https://facilitator.x402.dev")]);
    ("pricing", JObj [
       ("model", JStr "subscription");
       ("tiers", JObj [
          ("basic", JObj [
             ("price", JStr "10");
             ("currency", JStr "USDC");
             ("duration", JStr "30d");
             ("limits", JObj [("translations", JInt 1000)])]);
          ("pro", JObj [
             ("price", JStr "50");
             ("currency", JStr "USDC");
             ("duration", JStr "30d");
             ("limits", JObj [("translations", JInt (-1))])])])]);
    ("discovery", JObj [
       ("category", JList [JStr "translation"; JStr "language"; JStr "api"]);
       ("tags", JList [JStr "translate"; JStr "multilingual"; JStr "nlp"])])]).

(** The handlers of the routes that take no parameter. *)

Definition root : Handler json :=
  wallet <- global WALLET_ADDRESS ;;
  network <- global NETWORK ;;
  ret (JObj [
    ("name", JStr "Translation API with x402");
    ("version", JStr "1.0.0");
    ("payment", JObj [
       ("wallet", JStr wallet);
       ("network", JStr network);
       ("token", JStr "USDC")]);
    ("subscriptions", JObj [
       ("free", JObj [
          ("price", JStr "$0");
          ("limit", JStr "10 translations/month")]);
       ("basic", JObj [
          ("price", JStr "$10/month");
          ("limit", JStr "1000 translations/month")]);
       ("pro", JObj [
          ("price", JStr "$50/month");
          ("limit", JStr "unlimited")])]);
    ("docs", JStr "/docs")]).

Definition health_check : Handler json :=
  now <- datetime_now ;;
  ret (JObj [
    ("status", JStr "ok");
    ("timestamp", JStr (isoformat now))]).

Definition get_supported_languages : Handler json :=
  ret (JObj [
    ("languages", JList [
       JObj [("code", JStr "en"); ("name", JStr "English")];
       JObj [("code", JStr "es"); ("name", JStr "Spanish")];
       JObj [("code", JStr "fr"); ("name", JStr "French")];
       JObj [("code", JStr "de"); ("name", JStr "German")];
       JObj [("code", JStr "ja"); ("name", JStr "Japanese")];
       JObj [("code", JStr "zh"); ("name", JStr "Chinese")];
       JObj [("code", JStr "ar"); ("name", JStr "Arabic")];
       JObj [("code", JStr "ru"); ("name", JStr "Russian")]])]).

(** ** The application: routing and responses *)

(** A request that passed the framework's validation of the declared
    parameters, by route. *)
Inductive Request :=
| POST_translate (x_subscription_id : option string) (request : TranslationRequest)
| GET_subscription_status (x_subscription_id : option string)
| POST_subscribe (tier : string) (x_payment_hash : string)
| GET_x402_discovery.

Record Response := mk_Response {
  status : Z;
  body : json
}.

(** Serialisation of the response model of [/api/translate]. *)
Definition json_of_TranslationResponse (r : TranslationResponse) : json :=
  JObj [
    ("original", JStr (original r));
    ("translated", JStr (translated r));
    ("from_lang", JStr (resp_from_lang r));
    ("to_lang", JStr (resp_to_lang r));
    ("timestamp", JStr (timestamp r));
    ("subscription_tier", JStr (subscription_tier r))].

(** What the framework sends: 200 and the encoded value for a handler that
    returns, the exception's status and [{"detail": ...}] for one that
    raises [HTTPException]. *)
Definition respond {A} (encode : A -> json) (h : Handler A)
  : datetime -> Globals -> Response * Globals :=
  fun clock g =>
    match h clock g with
    | (Returned a, g') => ({| status := 200; body := encode a |}, g')
    | (Raised e, g') =>
        ({| status := status_code e;
            body := JObj [("detail", JStr (detail e))] |}, g')
    end.

(** The routes; [Depends(verify_user_subscription)] is resolved from the
    [X-Subscription-Id] header before the handler runs. *)
Definition app (r : Request) : datetime -> Globals -> Response * Globals :=
  match r with
  | POST_translate x_subscription_id request =>
      respond json_of_TranslationResponse
        (translate request (verify_user_subscription x_subscription_id))
  | GET_subscription_status x_subscription_id =>
      respond id
        (get_subscription_status (verify_user_subscription x_subscription_id))
  | POST_subscribe tier x_payment_hash =>
      respond id (subscribe tier x_payment_hash)
  | GET_x402_discovery =>
      respond id x402_discovery
  end.

(** The process serving the requests of a trace one after the other, each at
    the clock reading it arrives with. *)
Fixpoint serve (g : Globals) (trace : list (datetime * Request))
  : list Response * Globals :=
  match trace with
  | [] => ([], g)
  | (clock, r) :: rest =>
      let (resp, g') := app r clock g in
      let (resps, g'') := serve g' rest in
      (resp :: resps, g'')
  end.

(** ** Observations on responses and traces *)

(** A request is served when the answer is 200, and denied for lack of
    payment or quota when it is 402. *)
Definition served (r : Response) : bool := status r =? 200.

Definition denied (r : Response) : bool := status r =? 402.

Definition count (p : Response -> bool) (rs : list Response) : nat :=
  length (List.filter p rs).

(** The payment hashes of the subscribe requests of a trace that were
    accepted when the process, started in [g], served the trace. *)
Definition accepted_hashes (g : Globals) (trace : list (datetime * Request))
  : list string :=
  flat_map
    (fun ev_resp : (datetime * Request) * Response =>
       match snd (fst ev_resp) with
       | POST_subscribe _ x_payment_hash =>
           if served (snd ev_resp) then [x_payment_hash] else []
       | _ => []
       end)
    (combine trace (fst (serve g trace))).

(** The subscription ids handed out while the process served a trace. *)
Definition issued_ids (g : Globals) (trace : list (datetime * Request))
  : list json :=
  flat_map
    (fun resp : Response =>
       match field "subscription_id" (body resp) with
       | Some sid => [sid]
       | None => []
       end)
    (fst (serve g trace)).

(** A translate request whose identity header resolves to [tier]. *)
Definition translate_as (tier : string) (ev : datetime * Request) : Prop :=
  match snd ev with
  | POST_translate x_subscription_id _ =>
      verify_user_subscription x_subscription_id = tier
  | _ => False
  end.

(** ** All routes of the application *)

(** The routes without parameters: [/], [/health] and [/api/languages]. *)
Inductive InfoRequest :=
| GET_root
| GET_health
| GET_languages.

Definition app_info (r : InfoRequest) : datetime -> Globals -> Response * Globals :=
  match r with
  | GET_root => respond id root
  | GET_health => respond id health_check
  | GET_languages => respond id get_supported_languages
  end.

Inductive AnyRequest :=
| Api (r : Request)
| Info (r : InfoRequest).

Definition app_any (r : AnyRequest) : datetime -> Globals -> Response * Globals :=
  match r with
  | Api r' => app r'
  | Info r' => app_info r'
  end.

(** The process serving a trace over all routes. *)
Fixpoint serve_any (g : Globals) (trace : list (datetime * AnyRequest))
  : list Response * Globals :=
  match trace with
  | [] => ([], g)
  | (clock, r) :: rest =>
      let (resp, g') := app_any r clock g in
      let (resps, g'') := serve_any g' rest in
      (resp :: resps, g'')
  end.

(** The language codes listed by a document of [/api/languages]. *)
Definition language_codes (doc : json) : list string :=
  match field "languages" doc with
  | Some (JList entries) =>
      flat_map
        (fun entry =>
           match field "code" entry with
           | Some (JStr code) => [code]
           | _ => []
           end)
        entries
  | _ => []
  end.

(** ** The quota ledger and the clock of the specification

    The source has no counterpart of these; they follow the words of the
    specification and serve to compare the service with it. *)

Module Spec.

Inductive reason := QuotaExceeded.

Inductive decision :=
| Granted
| Denied (why : reason).

(** Section 4.3, with [amount = 1]: an unbounded tier is always granted;
    a bounded one is granted while [count + amount <= limit], and otherwise
    denied with the count left as it is. *)
Definition tryConsume (limit : option Z) (count : Z) : decision * Z :=
  match limit with
  | None => (Granted, count + 1)
  | Some l =>
      if count + 1 <=? l then (Granted, count + 1)
      else (Denied QuotaExceeded, count)
  end.

(** The decisions on [n] successive calls for one subscriber and period. *)
Fixpoint ledger (limit : option Z) (count : Z) (n : nat) : list decision :=
  match n with
  | O => []
  | S n' =>
      let (d, count') := tryConsume limit count in
      d :: ledger limit count' n'
  end.

(** Section 4.2: the expiry of a record created at [now] for a period of
    [days] days. *)
Definition expiry (now : datetime) (days : Z) : Z :=
  epoch_seconds now + days * 86400.

End Spec.

Example translate_text_en_es : translate_text "hello" "en" "es" = "[ES] hello".
Proof. vm_compute. reflexivity. Qed.

Example translate_text_other : translate_text "hello" "en" "ja" = "[JA] hello".
Proof. vm_compute. reflexivity. Qed.

Example isoformat_ex :
  isoformat (mk_datetime 2026 11 4 9 5 0 1200) = "2026-11-04T09:05:00.001200".
Proof. vm_compute. reflexivity. Qed.

Example subscribe_ex :
  fst (app (POST_subscribe "basic" "0x0123456789abcdef0123")
         (mk_datetime 2026 11 4 9 5 0 0) (import_module None))
  = mk_Response 200 (JObj [
        ("success", JBool true);
        ("subscription_id", JStr "basic_0x0123456789abcd");
        ("tier", JStr "basic");
        ("price", JStr "$10 USDC");
        ("duration", JStr "30 days");
        ("expires", JStr "2026-02-28T23:59:59Z");
        ("instructions",
         JStr "Include 'X-Subscription-Id: basic_0x0123456789abcd' header in API requests")]).
Proof. vm_compute. reflexivity. Qed.

(** ** Lookup tables *)

Lemma prices_lookup (tier : string) :
  prices !! tier =
    if decide (tier = "basic") then Some "10"
    else if decide (tier = "pro") then Some "50" else None.
Proof.
  unfold prices.
  repeat (rewrite lookup_insert; case_decide; subst; try congruence).
  all: repeat case_decide; try congruence; try reflexivity.
Qed.

Lemma prices_None (tier : string) :
  prices !! tier = None <-> tier <> "basic" /\ tier <> "pro".
Proof.
  rewrite prices_lookup. repeat case_decide; split; intros; try discriminate; intuition.
Qed.

Lemma prices_Some (tier : string) :
  is_Some (prices !! tier) <-> tier = "basic" \/ tier = "pro".
Proof.
  rewrite prices_lookup.
  repeat case_decide; split; intros H'; try (destruct H' as [? ?]; discriminate); eauto.
  destruct H'; contradiction.
Qed.

(** ** Handlers leave the module-level state alone *)

Lemma app_globals (r : Request) (clock : datetime) (g : Globals) :
  snd (app r clock g) = g.
Proof.
  destruct r; cbn; try reflexivity.
  unfold respond, subscribe. destruct (prices !! tier); reflexivity.
Qed.

Lemma serve_globals (trace : list (datetime * Request)) (g : Globals) :
  snd (serve g trace) = g.
Proof.
  induction trace as [|[clock r] rest IH]; cbn; [reflexivity|].
  pose proof (app_globals r clock g) as Hg.
  destruct (app r clock g) as [resp g']; cbn in Hg; subst g'.
  destruct (serve g rest) as [resps g'']; cbn in *. exact IH.
Qed.

(** Hence the responses to a trace are the responses to its requests taken
    one by one. *)
Lemma serve_responses (trace : list (datetime * Request)) (g : Globals) :
  fst (serve g trace) = map (fun ev => fst (app (snd ev) (fst ev) g)) trace.
Proof.
  induction trace as [|[clock r] rest IH]; cbn; [reflexivity|].
  pose proof (app_globals r clock g) as Hg.
  destruct (app r clock g) as [resp g']; cbn in Hg; subst g'.
  destruct (serve g rest) as [resps g'']; cbn in *. now rewrite IH.
Qed.

Lemma serve_app (g : Globals) (t1 t2 : list (datetime * Request)) :
  fst (serve g (t1 ++ t2)) = fst (serve g t1) ++ fst (serve g t2).
Proof. rewrite !serve_responses. apply map_app. Qed.

Lemma app_translate (h : option string) (req : TranslationRequest)
  (clock : datetime) (g : Globals) :
  app (POST_translate h req) clock g =
    ({| status := 200;
        body := JObj [
          ("original", JStr (text req));
          ("translated",
           JStr (translate_text (text req) (from_lang req) (to_lang req)));
          ("from_lang", JStr (from_lang req));
          ("to_lang", JStr (to_lang req));
          ("timestamp", JStr (isoformat clock));
          ("subscription_tier", JStr (verify_user_subscription h))] |}, g).
Proof. reflexivity. Qed.

(** ** Tier lookup *)

Lemma verify_user_subscription_range (h : option string) :
  verify_user_subscription h = "free"
  \/ verify_user_subscription h = "basic"
  \/ verify_user_subscription h = "pro".
Proof.
  destruct h as [[|c sid]|]; unfold verify_user_subscription; auto.
  destruct (Py.startswith (String c sid) "basic_"); auto.
  destruct (Py.startswith (String c sid) "pro_"); auto.
Qed.

(** ** Counting served and denied requests *)

Lemma count_translate (p : Response -> bool) (g : Globals)
  (trace : list (datetime * Request)) (tier : string) :
  Forall (translate_as tier) trace ->
  (forall r, status r = 200 -> p r = true) ->
  count p (fst (serve g trace)) = length trace.
Proof.
  intros Hall Hp. rewrite serve_responses. unfold count.
  induction Hall as [|[clock r] rest Hev _ IH]; cbn [map List.filter length]; [reflexivity|].
  destruct r; cbn in Hev; try contradiction.
  cbn [fst snd]. rewrite app_translate. cbn [fst].
  rewrite Hp by reflexivity. cbn [length]. now rewrite IH.
Qed.

Lemma count_translate_none (p : Response -> bool) (g : Globals)
  (trace : list (datetime * Request)) (tier : string) :
  Forall (translate_as tier) trace ->
  (forall r, status r = 200 -> p r = false) ->
  count p (fst (serve g trace)) = 0%nat.
Proof.
  intros Hall Hp. rewrite serve_responses. unfold count.
  induction Hall as [|[clock r] rest Hev _ IH]; cbn [map List.filter length]; [reflexivity|].
  destruct r; cbn in Hev; try contradiction.
  cbn [fst snd]. rewrite app_translate. cbn [fst].
  rewrite Hp by reflexivity. exact IH.
Qed.

(** The usage figures of the status endpoint, for every identity header. *)
Lemma status_usage_within_limit (h : option string) (clock : datetime) (g : Globals) :
  exists used limit,
    field "usage" (body (fst (app (GET_subscription_status h) clock g)))
      = Some (JObj [("used", JInt used); ("limit", limit)])
    /\ forall l, limit = JInt l -> used <= l.
Proof.
  cbn. destruct (verify_user_subscription_range h) as [-> | [-> | ->]];
    vm_compute; do 2 eexists; (split; [reflexivity|]);
    intros l [= <-]; discriminate.
Qed.

(** C1, as the specification has it, fails: twelve translate requests of a
    subscriber without identity header (free tier) are all served; it is not
    the case that ten are served and two denied. *)
Lemma C1_free_burst_counterexample :
  let event :=
    (mk_datetime 2026 11 4 12 0 0 0,
     POST_translate None (mk_TranslationRequest "hello" "en" "es")) in
  let responses := fst (serve (import_module None) (repeat event 12)) in
  ~ (count served responses = 10%nat /\ count denied responses = 2%nat).
Proof. vm_compute. intros [H _]. discriminate H. Qed.

(** C1 (amended): for a free-tier subscriber, after any sequence of twelve
    translate requests all twelve are served and none is denied, the stored
    state is what it was (no usage is recorded), and the usage count that the
    status endpoint reports never exceeds the limit of a bounded tier. *)
Theorem C1_free_requests_all_served (g : Globals)
  (trace : list (datetime * Request)) :
  length trace = 12%nat ->
  Forall (translate_as "free") trace ->
  count served (fst (serve g trace)) = 12%nat
  /\ count denied (fst (serve g trace)) = 0%nat
  /\ snd (serve g trace) = g
  /\ forall h clock, exists used limit,
       field "usage" (body (fst (app (GET_subscription_status h) clock g)))
         = Some (JObj [("used", JInt used); ("limit", limit)])
       /\ forall l, limit = JInt l -> used <= l.
Proof.
  intros Hlen Hfree. repeat split.
  - rewrite (count_translate served g trace "free" Hfree); [exact Hlen|].
    intros r Hr. unfold served. rewrite Hr. reflexivity.
  - apply (count_translate_none denied g trace "free" Hfree).
    intros r Hr. unfold denied. rewrite Hr. reflexivity.
  - apply serve_globals.
  - intros h clock. apply status_usage_within_limit.
Qed.

Lemma C1_free_requests_all_served_witness :
  let event :=
    (mk_datetime 2026 11 4 12 0 0 0,
     POST_translate None (mk_TranslationRequest "hello" "en" "es")) in
  let trace := repeat event 12 in
  let g := import_module None in
  length trace = 12%nat
  /\ Forall (translate_as "free") trace
  /\ count served (fst (serve g trace)) = 12%nat
  /\ count denied (fst (serve g trace)) = 0%nat.
Proof.
  intros event trace g.
  assert (Hlen : length trace = 12%nat) by reflexivity.
  assert (Hfree : Forall (translate_as "free") trace)
    by (repeat constructor).
  destruct (C1_free_requests_all_served g trace Hlen Hfree) as (H1 & H2 & _).
  exact (conj Hlen (conj Hfree (conj H1 H2))).
Defined.

(** ** Subscribing *)

Lemma app_subscribe (tier h : string) (clock : datetime) (g : Globals) :
  app (POST_subscribe tier h) clock g =
    match prices !! tier with
    | None =>
        ({| status := 400; body := JObj [("detail", JStr "Invalid tier")] |}, g)
    | Some price =>
        let subscription_id := tier +:+ "_" +:+ String.substring 0 16 h in
        ({| status := 200;
            body := JObj [
              ("success", JBool true);
              ("subscription_id", JStr subscription_id);
              ("tier", JStr tier);
              ("price", JStr ("$" +:+ price +:+ " USDC"));
              ("duration", JStr "30 days");
              ("expires", JStr "2026-02-28T23:59:59Z");
              ("instructions",
               JStr ("Include 'X-Subscription-Id: " +:+ subscription_id
                     +:+ "' header in API requests"))] |}, g)
    end.
Proof.
  unfold app, respond, subscribe. destruct (prices !! tier); reflexivity.
Qed.

(** The answer to a subscribe request depends on the request alone. *)
Lemma app_subscribe_fixed (tier h : string) (clock1 clock2 : datetime)
  (g1 g2 : Globals) :
  fst (app (POST_subscribe tier h) clock1 g1)
  = fst (app (POST_subscribe tier h) clock2 g2).
Proof. rewrite !app_subscribe. destruct (prices !! tier); reflexivity. Qed.

Lemma app_subscribe_served (tier h : string) (clock : datetime) (g : Globals) :
  served (fst (app (POST_subscribe tier h) clock g)) = true
  <-> tier = "basic" \/ tier = "pro".
Proof.
  rewrite <- prices_Some, app_subscribe.
  destruct (prices !! tier) as [price|]; cbn; split; intros H; eauto.
  - discriminate.
  - destruct H as [? ?]; discriminate.
Qed.

(** C2, as the specification has it, fails: the same payment hash submitted
    twice is accepted twice; it is not the case that one submission is
    accepted and the other rejected. *)
Lemma C2_replay_counterexample :
  let submission := POST_subscribe "basic" "0xa1b2c3d4e5f60718293a4b5c6d7e8f90" in
  let trace :=
    [(mk_datetime 2026 1 15 10 0 0 0, submission);
     (mk_datetime 2026 1 15 10 0 1 0, submission)] in
  let responses := fst (serve (import_module None) trace) in
  ~ (count served responses = 1%nat
     /\ count (fun r => negb (served r)) responses = 1%nat).
Proof. vm_compute. intros [H _]. discriminate H. Qed.

(** C2 (amended): a payment hash submitted twice to subscribe, for the tier
    basic or pro, is accepted both times with one and the same response,
    whatever is served before, between and after the two submissions and in
    whatever order they arrive; the stored state is unchanged, so no
    uniqueness token is ever consumed. *)
Theorem C2_resubmission_accepted_again (g : Globals) (tier h : string)
  (clock1 clock2 : datetime)
  (before between after : list (datetime * Request)) :
  tier = "basic" \/ tier = "pro" ->
  let trace :=
    before ++ (clock1, POST_subscribe tier h)
           :: between ++ (clock2, POST_subscribe tier h) :: after in
  exists r,
    served r = true
    /\ fst (serve g trace)
       = fst (serve g before) ++ r :: fst (serve g between)
           ++ r :: fst (serve g after)
    /\ snd (serve g trace) = g.
Proof.
  intros Htier trace.
  exists (fst (app (POST_subscribe tier h) clock1 g)). split; [|split].
  - now apply app_subscribe_served.
  - unfold trace.
    change ((clock1, POST_subscribe tier h)
              :: between ++ (clock2, POST_subscribe tier h) :: after)
      with ([(clock1, POST_subscribe tier h)]
              ++ between ++ [(clock2, POST_subscribe tier h)] ++ after).
    rewrite !serve_app. rewrite !serve_responses. cbn [map fst snd List.app].
    rewrite (app_subscribe_fixed tier h clock2 clock1 g g). reflexivity.
  - apply serve_globals.
Qed.

Lemma C2_resubmission_accepted_again_witness :
  let g := import_module None in
  let submission := POST_subscribe "pro" "0xa1b2c3d4e5f60718293a4b5c6d7e8f90" in
  let clock := mk_datetime 2026 1 15 10 0 0 0 in
  ("pro" = "basic" \/ "pro" = "pro")
  /\ exists r,
       served r = true
       /\ fst (serve g [(clock, submission); (clock, submission)]) = [r; r].
Proof.
  intros g submission clock.
  assert (Htier : "pro" = "basic" \/ "pro" = "pro") by (right; reflexivity).
  split; [exact Htier|].
  destruct (C2_resubmission_accepted_again g "pro"
              "0xa1b2c3d4e5f60718293a4b5c6d7e8f90" clock clock [] [] []
              Htier) as (r & Hr & Hresp & _).
  exists r. split; [exact Hr | exact Hresp].
Defined.

Lemma verify_basic_prefix (s : string) :
  verify_user_subscription (Some ("basic_" +:+ s)) = "basic".
Proof. cbn. destruct s; reflexivity. Qed.

Lemma verify_pro_prefix (s : string) :
  verify_user_subscription (Some ("pro_" +:+ s)) = "pro".
Proof. cbn. destruct s; reflexivity. Qed.

(** C3, as the specification has it, fails: a payment hash that the service
    has already accepted is accepted again instead of being rejected as
    replayed, and so is an empty payment hash. *)
Lemma C3_unverified_payment_counterexample :
  let g := import_module None in
  let earlier :=
    [(mk_datetime 2026 1 15 10 0 0 0, POST_subscribe "basic" "0xfeed")] in
  let later := mk_datetime 2026 11 4 12 0 0 0 in
  let answer x_payment_hash :=
    fst (app (POST_subscribe "pro" x_payment_hash) later (snd (serve g earlier))) in
  ~ (In "0xfeed" (accepted_hashes g earlier) -> served (answer "0xfeed") = false)
  /\ ~ (served (answer "") = false).
Proof.
  split.
  - intros H. assert (Hin : In "0xfeed" (accepted_hashes (import_module None)
        [(mk_datetime 2026 1 15 10 0 0 0, POST_subscribe "basic" "0xfeed")]))
      by (vm_compute; auto).
    specialize (H Hin). vm_compute in H. discriminate H.
  - intros H. vm_compute in H. discriminate H.
Qed.

(** C3 (amended): subscribe accepts a request if and only if the requested
    tier is basic or pro, whatever the payment hash, the clock reading and the
    requests served before; this is its only check. A rejected request gets
    HTTP 400 with detail "Invalid tier", and the stored state is not
    mutated. *)
Theorem C3_subscribe_checks_tier_only (g : Globals)
  (history : list (datetime * Request)) (clock : datetime) (tier h : string) :
  let g' := snd (serve g history) in
  let r := fst (app (POST_subscribe tier h) clock g') in
  (served r = true <-> tier = "basic" \/ tier = "pro")
  /\ (served r = true
      \/ r = {| status := 400; body := JObj [("detail", JStr "Invalid tier")] |})
  /\ snd (app (POST_subscribe tier h) clock g') = g.
Proof.
  intros g' r. subst g' r. rewrite serve_globals. split; [|split].
  - apply app_subscribe_served.
  - rewrite app_subscribe. destruct (prices !! tier); [left | right]; reflexivity.
  - apply app_globals.
Qed.

(** C7, as the specification has it, fails: a subscription taken out on
    2026-11-04 is reported to expire on 2026-02-28, which is not thirty days
    after the current time. *)
Lemma C7_fixed_expiry_counterexample :
  let now := mk_datetime 2026 11 4 12 0 0 0 in
  let answer :=
    fst (app (POST_subscribe "basic" "0xa1b2c3d4e5f60718293a4b5c6d7e8f90") now
           (import_module None)) in
  ~ (forall expires,
       field "expires" (body answer) = Some (JStr (isoformat expires +:+ "Z")) ->
       epoch_seconds expires = Spec.expiry now 30).
Proof.
  intros now answer H.
  specialize (H (mk_datetime 2026 2 28 23 59 59 0) eq_refl).
  vm_compute in H. discriminate H.
Qed.

(** C7 (amended): on every accepted subscribe request (tier basic or pro) the
    response reports the duration "30 days", the catalog lists the period
    "30d" for the tier, and the reported expiry is the fixed instant
    2026-02-28T23:59:59Z whatever the current time; no tier record is created
    or superseded: the stored state is unchanged. *)
Theorem C7_subscription_expiry_fixed (g : Globals) (clock : datetime)
  (tier h : string) :
  tier = "basic" \/ tier = "pro" ->
  let answer := app (POST_subscribe tier h) clock g in
  status (fst answer) = 200
  /\ field "expires" (body (fst answer)) = Some (JStr "2026-02-28T23:59:59Z")
  /\ field "duration" (body (fst answer)) = Some (JStr "30 days")
  /\ at_path ["pricing"; "tiers"; tier; "duration"]
       (body (fst (app GET_x402_discovery clock g))) = Some (JStr "30d")
  /\ snd answer = g.
Proof.
  intros Htier answer. subst answer. rewrite app_subscribe.
  apply prices_Some in Htier as Hprice. destruct Hprice as [price Hprice].
  rewrite Hprice. cbn [fst snd status body].
  repeat split; try reflexivity.
  destruct Htier as [-> | ->]; reflexivity.
Qed.

Lemma C7_subscription_expiry_fixed_witness :
  let answer :=
    app (POST_subscribe "pro" "0xa1b2c3d4e5f60718293a4b5c6d7e8f90")
      (mk_datetime 2026 11 4 12 0 0 0) (import_module None) in
  ("pro" = "basic" \/ "pro" = "pro")
  /\ field "expires" (body (fst answer)) = Some (JStr "2026-02-28T23:59:59Z").
Proof.
  intros answer.
  assert (Htier : "pro" = "basic" \/ "pro" = "pro") by (right; reflexivity).
  split; [exact Htier|].
  exact (proj1 (proj2 (C7_subscription_expiry_fixed (import_module None)
                         (mk_datetime 2026 11 4 12 0 0 0) "pro"
                         "0xa1b2c3d4e5f60718293a4b5c6d7e8f90" Htier))).
Defined.

(** C8: for the tiers basic and pro and every payment hash, the
    subscription id that a successful subscribe call returns, presented as
    the X-Subscription-Id header, makes the subscription check resolve to
    that tier. *)
Theorem C8_subscribe_then_lookup (g : Globals) (clock : datetime)
  (tier h : string) :
  tier = "basic" \/ tier = "pro" ->
  exists sid,
    status (fst (app (POST_subscribe tier h) clock g)) = 200
    /\ field "subscription_id" (body (fst (app (POST_subscribe tier h) clock g)))
       = Some (JStr sid)
    /\ verify_user_subscription (Some sid) = tier.
Proof.
  intros Htier. rewrite app_subscribe.
  apply prices_Some in Htier as Hprice. destruct Hprice as [price Hprice].
  rewrite Hprice. cbn [fst status body].
  exists (tier +:+ "_" +:+ String.substring 0 16 h).
  split; [reflexivity|]. split; [reflexivity|].
  destruct Htier as [-> | ->]; [apply verify_basic_prefix | apply verify_pro_prefix].
Qed.

Lemma C8_subscribe_then_lookup_witness :
  ("basic" = "basic" \/ "basic" = "pro")
  /\ exists sid,
       status (fst (app (POST_subscribe "basic" "0xa1b2c3d4e5f60718293a4b5c6d7e8f90")
                      (mk_datetime 2026 11 4 12 0 0 0) (import_module None))) = 200
       /\ field "subscription_id"
            (body (fst (app (POST_subscribe "basic" "0xa1b2c3d4e5f60718293a4b5c6d7e8f90")
                          (mk_datetime 2026 11 4 12 0 0 0) (import_module None))))
          = Some (JStr sid)
       /\ verify_user_subscription (Some sid) = "basic".
Proof.
  assert (Htier : "basic" = "basic" \/ "basic" = "pro") by (left; reflexivity).
  split; [exact Htier|].
  exact (C8_subscribe_then_lookup (import_module None)
           (mk_datetime 2026 11 4 12 0 0 0) "basic"
           "0xa1b2c3d4e5f60718293a4b5c6d7e8f90" Htier).
Defined.

Lemma substring_is_prefix (n : nat) (s : string) :
  exists rest, s = String.substring 0 n s +:+ rest.
Proof.
  revert s. induction n as [|n IH]; intros [|c s].
  - exists "". reflexivity.
  - exists (String c s). reflexivity.
  - exists "". reflexivity.
  - destruct (IH s) as [rest Hrest]. exists rest.
    change (String c s = String c (String.substring 0 n s +:+ rest)).
    now rewrite <- Hrest.
Qed.

Lemma length_substring_min (n : nat) (s : string) :
  String.length (String.substring 0 n s) = Nat.min n (String.length s).
Proof.
  revert s. induction n as [|n IH]; intros [|c s]; try reflexivity.
  change (S (String.length (String.substring 0 n s))
          = S (Nat.min n (String.length s))).
  now rewrite IH.
Qed.

(** C10: subscribe raises HTTP 400 with detail "Invalid tier" if and only if
    the requested tier is neither "basic" nor "pro"; for those two tiers it
    returns success = True and the subscription id made of the tier name, an
    underscore and the first 16 characters of the payment hash (the whole
    hash when it is shorter); in both cases the stored state is left as it
    was. *)
Theorem C10_subscribe_outcome (clock : datetime) (g : Globals)
  (tier x_payment_hash : string) :
  (fst (subscribe tier x_payment_hash clock g)
     = Raised {| status_code := 400; detail := "Invalid tier" |}
   <-> tier <> "basic" /\ tier <> "pro")
  /\ (tier = "basic" \/ tier = "pro"
      <-> exists doc first16,
            fst (subscribe tier x_payment_hash clock g) = Returned doc
            /\ field "success" doc = Some (JBool true)
            /\ field "subscription_id" doc
               = Some (JStr (tier +:+ "_" +:+ first16))
            /\ first16 = String.substring 0 16 x_payment_hash
            /\ (exists rest, x_payment_hash = first16 +:+ rest)
            /\ String.length first16
               = Nat.min 16 (String.length x_payment_hash))
  /\ snd (subscribe tier x_payment_hash clock g) = g.
Proof.
  rewrite <- prices_None, <- prices_Some. unfold subscribe.
  destruct (prices !! tier) as [price|]; cbn [fst snd ret raise].
  - split; [|split]; [split; intros; discriminate | | reflexivity].
    split; [intros _ | intros _; eauto].
    eexists. exists (String.substring 0 16 x_payment_hash).
    split; [reflexivity|]. split; [reflexivity|]. split; [reflexivity|].
    split; [reflexivity|].
    split; [apply substring_is_prefix | apply length_substring_min].
  - split; [|split]; [split; intros; reflexivity | | reflexivity].
    split; [intros [? ?]; discriminate
           | intros (doc & first16 & Hdoc & _); discriminate].
Qed.

(** ** Subscription ids and tier lookup *)

Lemma length_substring_le (n : nat) (s : string) :
  (String.length (String.substring 0 n s) <= n)%nat.
Proof.
  revert s. induction n as [|n IH]; intros [|c s]; cbn; try lia.
  specialize (IH s). lia.
Qed.

(** Every subscription id the service hands out is a tier of the price
    table, an underscore and at most 16 characters. *)
Lemma issued_id_shape (g : Globals) (trace : list (datetime * Request)) (v : json) :
  In v (issued_ids g trace) ->
  exists tier suffix,
    (tier = "basic" \/ tier = "pro")
    /\ (String.length suffix <= 16)%nat
    /\ v = JStr (tier +:+ "_" +:+ suffix).
Proof.
  unfold issued_ids. rewrite serve_responses, in_flat_map.
  intros (resp & Hresp & Hv). apply in_map_iff in Hresp.
  destruct Hresp as ([clock r] & <- & _). cbn [fst snd] in Hv.
  destruct r as [h req | h | tier x_payment_hash |].
  - rewrite app_translate in Hv. cbn in Hv. contradiction.
  - cbn in Hv. contradiction.
  - rewrite app_subscribe in Hv.
    destruct (prices !! tier) as [price|] eqn:Hprice; cbn in Hv; [|contradiction].
    destruct Hv as [<- | []].
    exists tier, (String.substring 0 16 x_payment_hash).
    split; [apply prices_Some; eauto|]. split; [apply length_substring_le | reflexivity].
  - cbn in Hv. contradiction.
Qed.

(** C4, as the specification has it, fails. The identity
    "basic_0123456789abcdefg" was handed out by no subscribe call of any
    trace, so its bearer has no tier record, and still it resolves to basic;
    and an identity whose advertised expiry has passed keeps its tier. *)
Lemma C4_lookup_without_record_counterexample :
  let g := import_module None in
  let sid := "basic_0123456789abcdefg" in
  let later := mk_datetime 2026 11 4 12 0 0 0 in
  let answer :=
    fst (app (POST_subscribe "basic" "0xa1b2c3d4e5f60718293a4b5c6d7e8f90")
           (mk_datetime 2026 1 15 10 0 0 0) g) in
  ~ ((forall trace, ~ In (JStr sid) (issued_ids g trace)) ->
     verify_user_subscription (Some sid) = "free")
  /\ ~ (forall issued expires,
          field "subscription_id" (body answer) = Some (JStr issued) ->
          field "expires" (body answer) = Some (JStr (isoformat expires +:+ "Z")) ->
          epoch_seconds expires < epoch_seconds later ->
          verify_user_subscription (Some issued) = "free").
Proof.
  intros g sid later answer. split.
  - intros H. assert (Hfree : verify_user_subscription (Some sid) = "free").
    { apply H. intros trace Hin.
      destruct (issued_id_shape g trace _ Hin) as (tier & suffix & Htier & Hlen & Heq).
      subst sid. destruct Htier as [-> | ->]; cbn in Heq; [|discriminate Heq].
      injection Heq as Heq. change ("" +:+ suffix) with suffix in Heq.
      rewrite <- Heq in Hlen. cbn in Hlen. lia. }
    vm_compute in Hfree. discriminate Hfree.
  - intros H.
    specialize (H "basic_0xa1b2c3d4e5f607" (mk_datetime 2026 2 28 23 59 59 0)
                  eq_refl eq_refl).
    assert (Hpast : epoch_seconds (mk_datetime 2026 2 28 23 59 59 0)
                    < epoch_seconds later) by (vm_compute; reflexivity).
    specialize (H Hpast). vm_compute in H. discriminate H.
Qed.

Lemma prefix_iff_append (p s : string) :
  String.prefix p s = true <-> exists x, s = p +:+ x.
Proof.
  revert s. induction p as [|a p IH]; intros s.
  - split; [intros _; exists s; reflexivity | intros _; destruct s; reflexivity].
  - destruct s as [|b s].
    + split; [discriminate | intros [x Hx]; discriminate Hx].
    + change (String.prefix (String a p) (String b s))
        with (if ascii_dec a b then String.prefix p s else false).
      destruct (ascii_dec a b) as [<- | Hab].
      * rewrite IH. split; intros [x Hx]; exists x.
        -- change (String a s = String a (p +:+ x)). now rewrite Hx.
        -- change (String a s = String a (p +:+ x)) in Hx. now injection Hx.
      * split; [discriminate|]. intros [x Hx].
        change (String b s = String a (p +:+ x)) in Hx.
        injection Hx as Hba _. now contradiction Hab.
Qed.

(** C4 (amended): the tier lookup used for admission returns the free tier
    exactly when the identity header is absent, is empty, or begins with
    neither "basic_" nor "pro_"; every header that begins with "basic_"
    resolves to basic and every header that begins with "pro_" resolves to
    pro; the tier so found is the one the translate response reports. The
    lookup consults no tier record and no expiry. *)
Theorem C4_free_tier_lookup (h : option string) (req : TranslationRequest)
  (clock : datetime) (g : Globals) :
  (verify_user_subscription h = "free"
   <-> h = None
       \/ h = Some ""
       \/ exists sid, h = Some sid
            /\ (forall rest, sid <> "basic_" +:+ rest)
            /\ (forall rest, sid <> "pro_" +:+ rest))
  /\ (forall rest, verify_user_subscription (Some ("basic_" +:+ rest)) = "basic")
  /\ (forall rest, verify_user_subscription (Some ("pro_" +:+ rest)) = "pro")
  /\ field "subscription_tier" (body (fst (app (POST_translate h req) clock g)))
     = Some (JStr (verify_user_subscription h)).
Proof.
  split; [|split; [apply verify_basic_prefix|split; [apply verify_pro_prefix|reflexivity]]].
  destruct h as [[|c sid]|].
  - split; auto.
  - unfold verify_user_subscription, Py.startswith.
    destruct (String.prefix "basic_" (String c sid)) eqn:Hb;
      [|destruct (String.prefix "pro_" (String c sid)) eqn:Hp].
    + split; [discriminate|].
      apply prefix_iff_append in Hb as [x Hx].
      intros [H | [H | (s & [= <-] & Hb' & _)]]; try discriminate H.
      now contradiction (Hb' x).
    + split; [discriminate|].
      apply prefix_iff_append in Hp as [x Hx].
      intros [H | [H | (s & [= <-] & _ & Hp')]]; try discriminate H.
      now contradiction (Hp' x).
    + split; [|reflexivity]. intros _. right; right.
      exists (String c sid). split; [reflexivity|].
      split; intros rest Hrest.
      * assert (Ht : String.prefix "basic_" (String c sid) = true)
          by (apply prefix_iff_append; eauto).
        congruence.
      * assert (Ht : String.prefix "pro_" (String c sid) = true)
          by (apply prefix_iff_append; eauto).
        congruence.
  - split; auto.
Qed.

(** ** Translating *)

(** C5: for a subscriber on the unlimited pro tier the metered translate
    operation never answers with a quota denial, however many requests were
    served before: the request is served with status 200. *)
Theorem C5_pro_never_denied (g : Globals) (history : list (datetime * Request))
  (clock : datetime) (h : option string) (req : TranslationRequest) :
  verify_user_subscription h = "pro" ->
  exists r,
    fst (serve g (history ++ [(clock, POST_translate h req)]))
      = fst (serve g history) ++ [r]
    /\ served r = true
    /\ denied r = false
    /\ field "subscription_tier" (body r) = Some (JStr "pro").
Proof.
  intros Hpro. rewrite serve_app, (serve_responses [_]).
  cbn [map fst snd]. rewrite app_translate, Hpro. cbn [fst].
  eexists. split; [reflexivity|]. repeat split.
Qed.

Lemma C5_pro_never_denied_witness :
  let g := import_module None in
  let clock := mk_datetime 2026 11 4 12 0 0 0 in
  let req := mk_TranslationRequest "good morning" "en" "fr" in
  let history := repeat (clock, POST_translate (Some "pro_0xa1b2c3d4e5f607") req) 40 in
  verify_user_subscription (Some "pro_0xa1b2c3d4e5f607") = "pro"
  /\ exists r,
       fst (serve g (history ++ [(clock, POST_translate (Some "pro_0xa1b2c3d4e5f607") req)]))
         = fst (serve g history) ++ [r]
       /\ served r = true
       /\ denied r = false.
Proof.
  intros g clock req history.
  assert (Hpro : verify_user_subscription (Some "pro_0xa1b2c3d4e5f607") = "pro")
    by reflexivity.
  split; [exact Hpro|].
  destruct (C5_pro_never_denied g history clock (Some "pro_0xa1b2c3d4e5f607")
              req Hpro) as (r & Hresp & Hserved & Hdenied & _).
  exists r. exact (conj Hresp (conj Hserved Hdenied)).
Defined.

(** C6, as the specification has it, fails: the eleventh request of a
    free-tier subscriber is denied by the quota check of the specification
    (limit 10), but the answer of the gateway is not a 402 denial. *)
Lemma C6_no_denial_counterexample :
  let event :=
    (mk_datetime 2026 11 4 12 0 0 0,
     POST_translate None (mk_TranslationRequest "hello" "en" "es")) in
  let responses := fst (serve (import_module None) (repeat event 11)) in
  ~ (forall i,
       nth_error (Spec.ledger (Some 10) 0 11) i
         = Some (Spec.Denied Spec.QuotaExceeded) ->
       exists r, nth_error responses i = Some r /\ status r = 402).
Proof.
  intros event responses H.
  destruct (H 10%nat eq_refl) as (r & Hr & Hstatus).
  vm_compute in Hr. injection Hr as <-. discriminate Hstatus.
Qed.

(** C6 (amended): every metered translate request is served, whatever was
    served before: the response has status 200 and carries the result of the
    service backend [translate_text] for the body of the request, next to
    the request's own text and languages; the gateway makes no quota check
    and never answers a translate request with a 402 denial. *)
Theorem C6_translate_always_served (g : Globals)
  (history : list (datetime * Request)) (clock : datetime)
  (h : option string) (req : TranslationRequest) :
  let r := fst (app (POST_translate h req) clock (snd (serve g history))) in
  served r = true
  /\ denied r = false
  /\ field "translated" (body r)
     = Some (JStr (translate_text (text req) (from_lang req) (to_lang req)))
  /\ field "original" (body r) = Some (JStr (text req))
  /\ field "from_lang" (body r) = Some (JStr (from_lang req))
  /\ field "to_lang" (body r) = Some (JStr (to_lang req)).
Proof.
  intros r. subst r. rewrite app_translate. repeat split.
Qed.

(** C9: two translate requests with the same body and different, or absent,
    identity headers get responses whose original, translated, from_lang and
    to_lang fields are present and identical: the translation does not depend
    on the subscription tier. *)
Theorem C9_translation_independent_of_identity (g1 g2 : Globals)
  (clock1 clock2 : datetime) (h1 h2 : option string) (req : TranslationRequest) :
  let r1 := fst (app (POST_translate h1 req) clock1 g1) in
  let r2 := fst (app (POST_translate h2 req) clock2 g2) in
  status r1 = status r2
  /\ Forall (fun k => is_Some (field k (body r1))
                     /\ field k (body r1) = field k (body r2))
       ["original"; "translated"; "from_lang"; "to_lang"].
Proof.
  intros r1 r2. subst r1 r2. rewrite !app_translate. split; [reflexivity|].
  repeat constructor; cbn; eauto.
Qed.

(** ** Worked examples *)

Example days_from_civil_epoch : days_from_civil 1970 1 1 = 0.
Proof. reflexivity. Qed.

Example epoch_seconds_expiry :
  epoch_seconds (mk_datetime 2026 2 28 23 59 59 0) = 1772323199.
Proof. reflexivity. Qed.

Example verify_user_subscription_ex :
  map verify_user_subscription
    [None; Some ""; Some "basic_1"; Some "pro_"; Some "pro"; Some "Basic_1"]
  = ["free"; "free"; "basic"; "pro"; "free"; "free"].
Proof. reflexivity. Qed.

Example subscribe_invalid_tier :
  fst (app (POST_subscribe "free" "0xfeed") (mk_datetime 2026 11 4 9 5 0 0)
         (import_module None))
  = mk_Response 400 (JObj [("detail", JStr "Invalid tier")]).
Proof. vm_compute. reflexivity. Qed.

Example ledger_free_12 :
  Spec.ledger (Some 10) 0 12
  = repeat Spec.Granted 10 ++ repeat (Spec.Denied Spec.QuotaExceeded) 2.
Proof. reflexivity. Qed.

(** ** Strings *)

Lemma length_append (s1 s2 : string) :
  String.length (s1 +:+ s2) = (String.length s1 + String.length s2)%nat.
Proof. induction s1 as [|c s1 IH]; simpl; [reflexivity | now rewrite IH]. Qed.

Lemma append_assoc (s1 s2 s3 : string) :
  (s1 +:+ s2) +:+ s3 = s1 +:+ s2 +:+ s3.
Proof.
  induction s1 as [|c s1 IH]; [reflexivity|].
  change (String c ((s1 +:+ s2) +:+ s3) = String c (s1 +:+ s2 +:+ s3)).
  now rewrite IH.
Qed.

Lemma substring_all (s : string) :
  String.substring 0 (String.length s) s = s.
Proof. induction s as [|c s IH]; cbn; [reflexivity | now rewrite IH]. Qed.

Lemma substring_append_skip (s1 s2 : string) (m : nat) :
  String.substring (String.length s1) m (s1 +:+ s2) = String.substring 0 m s2.
Proof. induction s1 as [|c s1 IH]; simpl; [reflexivity | exact IH]. Qed.

Lemma upper_length (s : string) : String.length (Py.upper s) = String.length s.
Proof. induction s as [|c s IH]; cbn; [reflexivity | now rewrite IH]. Qed.

Lemma upper_ascii_idempotent (c : ascii) :
  Py.upper_ascii (Py.upper_ascii c) = Py.upper_ascii c.
Proof. destruct c as [[] [] [] [] [] [] [] []]; reflexivity. Qed.

Lemma upper_idempotent (s : string) : Py.upper (Py.upper s) = Py.upper s.
Proof.
  induction s as [|c s IH]; cbn [Py.upper]; [reflexivity|].
  now rewrite upper_ascii_idempotent, IH.
Qed.

Lemma prefix_nil (s : string) : String.prefix "" s = true.
Proof. destruct s; reflexivity. Qed.

Lemma prefix_cons (a b : ascii) (p s : string) :
  String.prefix (String a p) (String b s)
  = if ascii_dec a b then String.prefix p s else false.
Proof. reflexivity. Qed.

Lemma prefix_head (a b : ascii) (p s : string) :
  String.prefix (String a p) (String b s) = true -> a = b.
Proof. rewrite prefix_cons. destruct (ascii_dec a b); [auto | discriminate]. Qed.

Lemma prefix_substring (p s : string) (n : nat) :
  (String.length p <= n)%nat ->
  String.prefix p (String.substring 0 n s) = String.prefix p s.
Proof.
  revert s n. induction p as [|a p IH]; intros s n Hn.
  - now rewrite !prefix_nil.
  - destruct n as [|n]; cbn in Hn; [lia|].
    destruct s as [|b s]; cbn; [reflexivity|].
    destruct (ascii_dec a b); [apply IH; lia | reflexivity].
Qed.

Lemma prefix_append (p s x : string) :
  String.prefix p s = true -> String.prefix p (s +:+ x) = true.
Proof.
  revert s. induction p as [|a p IH]; intros s Hp.
  - apply prefix_nil.
  - destruct s as [|b s]; simpl in *; [discriminate|].
    destruct (ascii_dec a b); [now apply IH | discriminate].
Qed.

(** ** The translation backend *)

Lemma translate_text_eq (text from_lang to_lang : string) :
  translate_text text from_lang to_lang
  = "[" +:+ Py.upper to_lang +:+ "] " +:+ text.
Proof.
  unfold translate_text, Py.get.
  repeat (rewrite lookup_insert;
          case_decide as Hk; [injection Hk as <- <-; reflexivity | clear Hk]).
  rewrite lookup_empty. reflexivity.
Qed.

(** The table of [translate_text] and its default agree: the result is the
    text behind the target language in upper case and brackets, so that the
    source language has no influence on it. *)
Theorem translate_text_tag (text from1 from2 to_lang : string) :
  translate_text text from1 to_lang
  = "[" +:+ Py.upper to_lang +:+ "] " +:+ text
  /\ translate_text text from1 to_lang = translate_text text from2 to_lang.
Proof. now rewrite !translate_text_eq. Qed.

(** For a target language written in ASCII, the text is recovered from its
    translation by dropping the tag, whose length is that of the target
    language plus three. *)
Theorem translate_text_round_trip (text from_lang to_lang : string) :
  Py.isascii to_lang = true ->
  let out := translate_text text from_lang to_lang in
  String.length out = (String.length to_lang + 3 + String.length text)%nat
  /\ String.substring (String.length to_lang + 3) (String.length text) out = text.
Proof.
  intros _ out. subst out. rewrite translate_text_eq.
  change ("[" +:+ Py.upper to_lang +:+ "] " +:+ text)
    with (String "[" (Py.upper to_lang +:+ "] " +:+ text)).
  split.
  - cbn [String.length]. rewrite !length_append, upper_length. simpl. lia.
  - replace (String.length to_lang + 3)%nat
      with (S (String.length (Py.upper to_lang +:+ "] ")))
      by (rewrite length_append, upper_length; simpl; lia).
    cbn [String.substring].
    replace (Py.upper to_lang +:+ "] " +:+ text)
      with ((Py.upper to_lang +:+ "] ") +:+ text).
    + rewrite substring_append_skip. apply substring_all.
    + apply append_assoc.
Qed.

Lemma translate_text_round_trip_witness :
  Py.isascii "pt-BR" = true
  /\ String.length (translate_text "bom dia" "en" "pt-BR") = 15%nat
  /\ String.substring 8 7 (translate_text "bom dia" "en" "pt-BR") = "bom dia".
Proof.
  assert (H : Py.isascii "pt-BR" = true) by reflexivity.
  split; [exact H|].
  exact (translate_text_round_trip "bom dia" "en" "pt-BR" H).
Defined.

(** The target language is read without regard to (ASCII) case, and the
    source language not at all. *)
Theorem translate_text_case_insensitive (text from1 from2 to_lang : string) :
  translate_text text from1 (Py.upper to_lang)
  = translate_text text from2 to_lang.
Proof. now rewrite !translate_text_eq, upper_idempotent. Qed.

(** ** The subscription check reads a prefix *)

(** Only the first six characters of the identity header decide the tier. *)
Theorem verify_reads_six_characters (sid : string) :
  verify_user_subscription (Some sid)
  = verify_user_subscription (Some (String.substring 0 6 sid)).
Proof.
  destruct sid as [|c sid]; [reflexivity|].
  change (String.substring 0 6 (String c sid))
    with (String c (String.substring 0 5 sid)).
  unfold verify_user_subscription, Py.startswith.
  change (String c (String.substring 0 5 sid))
    with (String.substring 0 6 (String c sid)).
  rewrite !prefix_substring by (cbn; lia). reflexivity.
Qed.

(** Text appended to an identity of a paid tier leaves the tier as it is. *)
Theorem verify_paid_tier_extends (sid extra : string) :
  verify_user_subscription (Some sid) <> "free" ->
  verify_user_subscription (Some (sid +:+ extra))
  = verify_user_subscription (Some sid).
Proof.
  destruct sid as [|c sid]; [intros H; now contradiction H|].
  simpl String.append. unfold verify_user_subscription, Py.startswith.
  change (String c (sid +:+ extra)) with (String c sid +:+ extra).
  destruct (String.prefix "basic_" (String c sid)) eqn:Hb.
  - now rewrite (prefix_append _ _ extra Hb).
  - destruct (String.prefix "pro_" (String c sid)) eqn:Hp;
      [|intros H; now contradiction H].
    intros _. rewrite (prefix_append _ _ extra Hp).
    destruct (String.prefix "basic_" (String c sid +:+ extra)) eqn:Hb'; [|reflexivity].
    exfalso. change (String c sid +:+ extra) with (String c (sid +:+ extra)) in Hb'.
    apply prefix_head in Hb', Hp. congruence.
Qed.

Lemma verify_paid_tier_extends_witness :
  verify_user_subscription (Some "pro_0xfeed") <> "free"
  /\ verify_user_subscription (Some ("pro_0xfeed" +:+ "; DROP"))
     = verify_user_subscription (Some "pro_0xfeed").
Proof.
  assert (H : verify_user_subscription (Some "pro_0xfeed") <> "free")
    by (vm_compute; discriminate).
  exact (conj H (verify_paid_tier_extends "pro_0xfeed" "; DROP" H)).
Defined.

(** ** The status endpoint *)

(** Over HTTP the status endpoint serves one of three usage records; the
    default record of the handler is never served, and the expiry is null
    exactly for the free tier. *)
Theorem status_endpoint_records (h : option string) (clock : datetime) (g : Globals) :
  let answer := fst (app (GET_subscription_status h) clock g) in
  let record tier used limit expires :=
    JObj [("tier", JStr tier);
          ("usage", JObj [("used", JInt used); ("limit", limit)]);
          ("expires", expires)] in
  status answer = 200
  /\ field "tier" (body answer) = Some (JStr (verify_user_subscription h))
  /\ (body answer = record "free" 5 (JInt 10) JNull
      \/ body answer = record "basic" 324 (JInt 1000) (JStr "2026-02-28T23:59:59Z")
      \/ body answer = record "pro" 5234 JNull (JStr "2026-02-28T23:59:59Z")).
Proof.
  intros answer record. subst answer record. cbn [app].
  split; [reflexivity|]. split; [reflexivity|].
  unfold respond, get_subscription_status, ret.
  destruct (verify_user_subscription_range h) as [H | [H | H]]; rewrite H.
  - left. vm_compute. reflexivity.
  - right; left. vm_compute. reflexivity.
  - right; right. vm_compute. reflexivity.
Qed.

(** Called with a tier outside its table, the status handler answers with
    the default usage record (0 of 10) and with the expiry of the paid
    tiers. *)
Theorem status_unknown_tier (tier : string) (clock : datetime) (g : Globals) :
  tier <> "free" -> tier <> "basic" -> tier <> "pro" ->
  get_subscription_status tier clock g
  = (Returned (JObj [
       ("tier", JStr tier);
       ("usage", JObj [("used", JInt 0); ("limit", JInt 10)]);
       ("expires", JStr "2026-02-28T23:59:59Z")]), g).
Proof.
  intros Hfree Hbasic Hpro. unfold get_subscription_status, ret, Py.get.
  rewrite !lookup_insert_ne, lookup_empty by congruence.
  apply String.eqb_neq in Hfree. rewrite Hfree. reflexivity.
Qed.

Lemma status_unknown_tier_witness :
  "enterprise" <> "free" /\ "enterprise" <> "basic" /\ "enterprise" <> "pro"
  /\ field "usage"
       (match fst (get_subscription_status "enterprise"
                     (mk_datetime 2026 11 4 12 0 0 0) (import_module None)) with
        | Returned doc => doc
        | Raised _ => JNull
        end)
     = Some (JObj [("used", JInt 0); ("limit", JInt 10)]).
Proof.
  assert (H1 : "enterprise" <> "free") by discriminate.
  assert (H2 : "enterprise" <> "basic") by discriminate.
  assert (H3 : "enterprise" <> "pro") by discriminate.
  split; [exact H1|]. split; [exact H2|]. split; [exact H3|].
  rewrite (status_unknown_tier "enterprise" (mk_datetime 2026 11 4 12 0 0 0)
             (import_module None) H1 H2 H3).
  reflexivity.
Defined.

(** ** Subscribing and the catalog *)

Lemma at_path_app (ks1 ks2 : list string) (doc : json) :
  at_path (ks1 ++ ks2) doc
  = match at_path ks1 doc with
    | Some d => at_path ks2 d
    | None => None
    end.
Proof.
  revert doc. induction ks1 as [|k ks1 IH]; intros doc; cbn [at_path List.app];
    [reflexivity|].
  destruct (field k doc); [apply IH | reflexivity].
Qed.

Lemma field_two (k k1 k2 : string) (v1 v2 : json) :
  field k (JObj [(k1, v1); (k2, v2)])
  = if String.eqb k k1 then Some v1
    else if String.eqb k k2 then Some v2 else None.
Proof. reflexivity. Qed.

(** subscribe accepts exactly the tiers that the discovery catalog lists,
    and the price it quotes is the catalog price of the tier, which is also
    the monthly price on the root document. *)
Theorem subscribe_agrees_with_catalog (tier h : string) (clock : datetime)
  (g : Globals) :
  let answer := fst (app (POST_subscribe tier h) clock g) in
  let catalog := body (fst (app GET_x402_discovery clock g)) in
  let home := body (fst (app_info GET_root clock g)) in
  (status answer = 200 <-> is_Some (at_path ["pricing"; "tiers"; tier] catalog))
  /\ (status answer = 200 ->
      exists price,
        at_path ["pricing"; "tiers"; tier; "price"] catalog = Some (JStr price)
        /\ field "price" (body answer) = Some (JStr ("$" +:+ price +:+ " USDC"))
        /\ at_path ["subscriptions"; tier; "price"] home
           = Some (JStr ("$" +:+ price +:+ "/month"))).
Proof.
  intros answer catalog home. subst answer catalog home.
  destruct (decide (tier = "basic")) as [-> | Hbasic];
    [|destruct (decide (tier = "pro")) as [-> | Hpro]].
  - split; [split; intros _; [eexists|]; reflexivity|].
    intros _. exists "10". repeat split.
  - split; [split; intros _; [eexists|]; reflexivity|].
    intros _. exists "50". repeat split.
  - assert (Hrej : status (fst (app (POST_subscribe tier h) clock g)) = 400).
    { rewrite app_subscribe.
      destruct (prices !! tier) as [price|] eqn:Hprice; [|reflexivity].
      assert (Hsome : is_Some (prices !! tier)) by eauto.
      apply prices_Some in Hsome. tauto. }
    rewrite Hrej. split; [split; [discriminate|] | discriminate].
    assert (Htiers : exists b p,
               at_path ["pricing"; "tiers"]
                 (body (fst (app GET_x402_discovery clock g)))
               = Some (JObj [("basic", b); ("pro", p)]))
      by (do 2 eexists; reflexivity).
    destruct Htiers as (b & p & Htiers).
    change ["pricing"; "tiers"; tier] with (["pricing"; "tiers"] ++ [tier]).
    rewrite at_path_app, Htiers. cbn [at_path]. rewrite field_two.
    apply String.eqb_neq in Hbasic, Hpro. rewrite Hbasic, Hpro.
    intros [? ?]. discriminate.
Qed.

Lemma subscribe_agrees_with_catalog_witness :
  let g := import_module None in
  let clock := mk_datetime 2026 11 4 12 0 0 0 in
  let answer := fst (app (POST_subscribe "basic" "0xfeed") clock g) in
  status answer = 200
  /\ exists price,
       at_path ["pricing"; "tiers"; "basic"; "price"]
         (body (fst (app GET_x402_discovery clock g))) = Some (JStr price)
       /\ field "price" (body answer) = Some (JStr ("$" +:+ price +:+ " USDC")).
Proof.
  intros g clock answer.
  assert (H : status answer = 200) by reflexivity.
  split; [exact H|].
  destruct (proj2 (subscribe_agrees_with_catalog "basic" "0xfeed" clock g) H)
    as (price & Hcat & Hprice & _).
  exists price. exact (conj Hcat Hprice).
Defined.



(** ** The documents of the service *)

(** The root document and the discovery document name the same payment
    wallet, network and token: the configured wallet, which is the zero
    address when X402_WALLET is not set, on the network eip155:8453. *)
Theorem payment_details_agree (x402_wallet : option string)
  (clock1 clock2 : datetime) :
  let g := import_module x402_wallet in
  let home := body (fst (app_info GET_root clock1 g)) in
  let catalog := body (fst (app GET_x402_discovery clock2 g)) in
  Forall (fun k => is_Some (at_path ["payment"; k] home)
                   /\ at_path ["payment"; k] home = at_path ["payment"; k] catalog)
    ["wallet"; "network"; "token"]
  /\ at_path ["payment"; "wallet"] catalog
     = Some (JStr (default "0x0000000000000000000000000000000000000000" x402_wallet))
  /\ at_path ["payment"; "network"] catalog = Some (JStr "eip155:8453").
Proof.
  intros g home catalog. subst g home catalog.
  split; [repeat constructor; cbn; eauto|].
  destruct x402_wallet; split; reflexivity.
Qed.

(** ** The application as a whole *)

Lemma app_info_globals (r : InfoRequest) (clock : datetime) (g : Globals) :
  snd (app_info r clock g) = g.
Proof. destruct r; reflexivity. Qed.

Lemma app_any_globals (r : AnyRequest) (clock : datetime) (g : Globals) :
  snd (app_any r clock g) = g.
Proof. destruct r; [apply app_globals | apply app_info_globals]. Qed.


Lemma serve_any_eq (g : Globals) (trace : list (datetime * AnyRequest)) :
  serve_any g trace
  = (map (fun ev => fst (app_any (snd ev) (fst ev) g)) trace, g).
Proof.
  induction trace as [|[clock r] rest IH]; cbn [serve_any map fst snd];
    [reflexivity|].
  pose proof (app_any_globals r clock g) as Hg.
  destruct (app_any r clock g) as [resp g']. cbn in Hg. subst g'.
  rewrite IH. reflexivity.
Qed.

(** No route changes the state of the process: the state at the end of a
    trace is the initial one, there is one answer for each request, and the
    answer to a request is the same whatever was served before it. *)
Theorem serve_any_stateless (g : Globals)
  (history : list (datetime * AnyRequest)) (clock : datetime) (r : AnyRequest) :
  snd (serve_any g (history ++ [(clock, r)])) = g
  /\ length (fst (serve_any g (history ++ [(clock, r)]))) = S (length history)
  /\ fst (serve_any g (history ++ [(clock, r)]))
     = fst (serve_any g history) ++ fst (serve_any g [(clock, r)]).
Proof.
  rewrite !serve_any_eq. cbn [fst snd].
  rewrite length_map, length_app, map_app. cbn. split; [reflexivity|].
  split; [lia | reflexivity].
Qed.




(** The identity that subscribe hands out is recognised by the status
    endpoint: it reports the tier subscribed to and the expiry that the
    subscribe response announced. *)
Theorem subscribe_then_status (tier h : string) (clock1 clock2 : datetime)
  (g : Globals) :
  tier = "basic" \/ tier = "pro" ->
  let answer := body (fst (app (POST_subscribe tier h) clock1 g)) in
  exists sid expires,
    field "subscription_id" answer = Some (JStr sid)
    /\ field "expires" answer = Some expires
    /\ let report := body (fst (app (GET_subscription_status (Some sid)) clock2 g)) in
       field "tier" report = Some (JStr tier)
       /\ field "expires" report = Some expires.
Proof.
  intros Htier answer. subst answer. rewrite app_subscribe.
  apply prices_Some in Htier as Hprice. destruct Hprice as [price Hprice].
  rewrite Hprice. cbn [fst body].
  exists (tier +:+ "_" +:+ String.substring 0 16 h), (JStr "2026-02-28T23:59:59Z").
  split; [reflexivity|]. split; [reflexivity|].
  cbn [app]. unfold respond, get_subscription_status, ret. cbn [fst body id].
  assert (Hv : verify_user_subscription
                 (Some (tier +:+ "_" +:+ String.substring 0 16 h)) = tier)
    by (destruct Htier as [-> | ->];
        [apply verify_basic_prefix | apply verify_pro_prefix]).
  rewrite Hv. split; [reflexivity|].
  destruct Htier as [-> | ->]; reflexivity.
Qed.

Lemma subscribe_then_status_witness :
  let g := import_module None in
  let answer :=
    body (fst (app (POST_subscribe "pro" "0xa1b2c3d4e5f60718293a")
                 (mk_datetime 2026 1 15 10 0 0 0) g)) in
  ("pro" = "basic" \/ "pro" = "pro")
  /\ exists sid expires,
       field "subscription_id" answer = Some (JStr sid)
       /\ field "expires" answer = Some expires
       /\ field "tier"
            (body (fst (app (GET_subscription_status (Some sid))
                          (mk_datetime 2026 1 16 10 0 0 0) g)))
          = Some (JStr "pro").
Proof.
  intros g answer.
  assert (H : "pro" = "basic" \/ "pro" = "pro") by (right; reflexivity).
  split; [exact H|].
  destruct (subscribe_then_status "pro" "0xa1b2c3d4e5f60718293a"
              (mk_datetime 2026 1 15 10 0 0 0) (mk_datetime 2026 1 16 10 0 0 0)
              g H) as (sid & expires & Hsid & Hexp & Htier & _).
  exists sid, expires. exact (conj Hsid (conj Hexp Htier)).
Defined.

(** ** Timestamps *)

Lemma zero_padded_length (k : nat) (n : Z) : String.length (zero_padded k n) = k.
Proof.
  revert n. induction k as [|k IH]; intros n; cbn [zero_padded]; [reflexivity|].
  rewrite length_append, IH. cbn. lia.
Qed.

(** The health check and the translate response carry the same timestamp
    for the same clock reading; it has 19 characters when the reading has no
    microseconds and 26 otherwise. *)
Theorem timestamp_width (clock : datetime) (g : Globals) (h : option string)
  (req : TranslationRequest) :
  exists ts,
    field "timestamp" (body (fst (app_info GET_health clock g))) = Some (JStr ts)
    /\ field "timestamp" (body (fst (app (POST_translate h req) clock g)))
       = Some (JStr ts)
    /\ String.length ts = if microsecond clock =? 0 then 19%nat else 26%nat.
Proof.
  exists (isoformat clock). split; [reflexivity|]. split; [reflexivity|].
  unfold isoformat. rewrite !length_append, !zero_padded_length.
  destruct (microsecond clock =? 0); [reflexivity|].
  rewrite length_append, zero_padded_length. reflexivity.
Qed.

(** ** Supported languages *)

(** Translations of a text into two different supported languages differ,
    whatever the source languages. *)
Theorem supported_languages_distinguished (clock : datetime) (g : Globals)
  (text from1 from2 to1 to2 : string) :
  let codes := language_codes (body (fst (app_info GET_languages clock g))) in
  In to1 codes -> In to2 codes -> to1 <> to2 ->
  translate_text text from1 to1 <> translate_text text from2 to2.
Proof.
  intros codes H1 H2 Hne. rewrite !translate_text_eq. subst codes.
  cbn in H1, H2.
  repeat (destruct H1 as [<- | H1]; [|]); try contradiction;
    repeat (destruct H2 as [<- | H2]; [|]); try contradiction;
    try (now contradiction Hne); intros E; vm_compute in E; discriminate E.
Qed.

Lemma supported_languages_distinguished_witness :
  let clock := mk_datetime 2026 11 4 12 0 0 0 in
  let g := import_module None in
  let codes := language_codes (body (fst (app_info GET_languages clock g))) in
  In "ja" codes /\ In "zh" codes /\ "ja" <> "zh"
  /\ translate_text "hello" "en" "ja" <> translate_text "hello" "en" "zh".
Proof.
  intros clock g codes.
  assert (H1 : In "ja" codes) by (cbn; tauto).
  assert (H2 : In "zh" codes) by (cbn; tauto).
  assert (H3 : "ja" <> "zh") by discriminate.
  split; [exact H1|]. split; [exact H2|]. split; [exact H3|].
  exact (supported_languages_distinguished clock g "hello" "en" "en" "ja" "zh"
           H1 H2 H3).
Defined.
